(** * Damage calculator

    A shallow embedding of [damage_calculator.py]: the [DamageType]
    enumeration, the [Attacker] and [Defender] dataclasses, and the two
    methods [calculate_damage] ("resolve_hit" in the specification) and
    [calculate_dot] ("resolve_dot") of the class [DamageCalculator].

    Numbers.  The Python program computes on [float] (and on [int] where a
    literal or a caller supplies one).  This development takes the reading
    of the specification, whose data model is over the reals: every number
    is an exact rational [Q], compared with [==].  Infinities, NaN and the
    rounding error of binary floating point are outside the model.  The
    built-ins the program applies to numbers keep their Python meaning:
    [/] raises [ZeroDivisionError] on a zero divisor, [int] truncates toward
    zero, [max(0, x)] returns its first argument unless the second is
    strictly larger, [round(x, 2)] rounds to the nearest multiple of 1/100
    with ties going to the even neighbour.

    Effects.  [calculate_damage] reads the global generator of the [random]
    module and appends to [self.damage_log]; both are threaded through an
    explicit program state, with exceptions as an outcome.
    [print_damage_report] and the demonstration under [__main__] only print
    and are not modelled; the values of the demonstration serve as the
    concrete inputs below. *)

From Stdlib Require Import ZArith QArith Qround Qabs Lqa Lia.
From stdpp Require Import base option list gmap strings.

Local Open Scope Q_scope.

(** ** Python numbers over [Q] *)

Module Py.

(** [x < y] *)
Definition lt (x y : Q) : bool := negb (Qle_bool y x).

(** [x >= y] *)
Definition ge (x y : Q) : bool := Qle_bool y x.

(** [max(0, x)]: the built-in keeps its first argument and replaces it
    only by a strictly larger one. *)
Definition max0 (x : Q) : Q := if lt 0 x then x else 0.

(** [int(x)]: truncation toward zero. *)
Definition int (x : Q) : Z := Z.quot (Qnum x) (Zpos (Qden x)).

(** Nearest integer, ties to the even neighbour. *)
Definition round_half_even (x : Q) : Z :=
  let f := Qfloor x in
  match Qcompare (x - inject_Z f) (1 # 2) with
  | Lt => f
  | Gt => (f + 1)%Z
  | Eq => if Z.even f then f else (f + 1)%Z
  end.

(** [round(x, ndigits)] for [ndigits >= 0]. *)
Definition round (x : Q) (ndigits : nat) : Q :=
  let scale := inject_Z (10 ^ Z.of_nat ndigits) in
  inject_Z (round_half_even (x * scale)) / scale.

End Py.

(** ** Exceptions and the program state *)

Inductive exn := ZeroDivisionError.

Inductive outcome (A : Type) :=
| Ok (a : A)
| Raise (e : exn).
Arguments Ok {A} a.
Arguments Raise {A} e.

(** ** The data model *)

(** [class DamageType(Enum)] *)
Inductive DamageType := PHYSICAL | MAGICAL | TRUE | FIRE | ICE | POISON.

(** The [value] of an enumeration member. *)
Definition DamageType_value (t : DamageType) : string :=
  match t with
  | PHYSICAL => "physical"
  | MAGICAL => "magical"
  | TRUE => "true"
  | FIRE => "fire"
  | ICE => "ice"
  | POISON => "poison"
  end.

#[global] Instance DamageType_eq_dec : EqDecision DamageType.
Proof. solve_decision. Defined.

Definition DamageType_encode (t : DamageType) : positive :=
  match t with
  | PHYSICAL => 1 | MAGICAL => 2 | TRUE => 3 | FIRE => 4 | ICE => 5 | POISON => 6
  end%positive.

Definition DamageType_decode (p : positive) : option DamageType :=
  match p with
  | 1 => Some PHYSICAL | 2 => Some MAGICAL | 3 => Some TRUE
  | 4 => Some FIRE | 5 => Some ICE | 6 => Some POISON
  | _ => None
  end%positive.

#[global] Instance DamageType_countable : Countable DamageType.
Proof.
  refine (inj_countable DamageType_encode DamageType_decode _).
  intros t. destruct t; reflexivity.
Defined.

(** [@dataclass class Attacker] *)
Module Attacker.
Record t := make {
  name : string;
  base_damage : Q;
  crit_chance : Q;
  crit_multiplier : Q;
  armor_penetration : Q
}.

(** The constructor with the declared defaults,
    [Attacker(name, base_damage)]. *)
Definition default (name : string) (base_damage : Q) : t :=
  make name base_damage 0 2 0.
End Attacker.

(** [@dataclass class Defender] *)
Module Defender.
Record t := make {
  name : string;
  armor : Q;
  resistances : gmap DamageType Q
}.

(** The generated [__init__] followed by [__post_init__]: a missing
    [resistances] becomes the empty dictionary. *)
Definition init (name : string) (armor : Q)
    (resistances : option (gmap DamageType Q)) : t :=
  make name armor (match resistances with None => ∅ | Some d => d end).
End Defender.

(** [dict.get(key, default)] *)
Definition dict_get (d : gmap DamageType Q) (key : DamageType) (dflt : Q) : Q :=
  match d !! key with
  | Some v => v
  | None => dflt
  end.

(** The dictionary returned by [calculate_damage]. *)
Module DamageResult.
Record t := make {
  attacker : string;
  defender : string;
  base_damage : Q;
  is_critical : bool;
  damage_after_crit : Q;
  damage_type : string;
  reduction : Q;
  final_damage : Q
}.
End DamageResult.

(** The dictionary returned by [calculate_dot]. *)
Module DotResult.
Record t := make {
  tick_damage : Q;
  num_ticks : Z;
  total_damage : Q;
  duration : Q
}.
End DotResult.

(** [class DamageCalculator]: the only attribute is [damage_log]. *)
Module DamageCalculator.
Record t := make { damage_log : list DamageResult.t }.

(** [__init__] *)
Definition init : t := make [].
End DamageCalculator.

(** The generator behind [random.random()]: the sequence of values it will
    return and the number of values already drawn. *)
Record generator := {
  tape : nat -> Q;
  drawn : nat
}.

(** Every value [random.random()] returns lies in [[0, 1)]. *)
Definition unit_interval (g : generator) : Prop :=
  forall n, 0 <= tape g n /\ tape g n < 1.

(** The state a method call runs in: the calculator it is invoked on and the
    module-level generator. *)
Record state := {
  self : DamageCalculator.t;
  rng : generator
}.

(** ** The monad of method bodies *)

Definition M (A : Type) : Type := state -> outcome A * state.

Definition ret {A} (a : A) : M A := fun s => (Ok a, s).

Definition raise {A} (e : exn) : M A := fun s => (Raise e, s).

Definition bind {A B} (k : A -> M B) (m : M A) : M B :=
  fun s =>
    match m s with
    | (Ok a, s') => k a s'
    | (Raise e, s') => (Raise e, s')
    end.

#[global] Instance M_ret : MRet M := @ret.
#[global] Instance M_bind : MBind M := @bind.

(** [random.random()] *)
Definition random : M Q :=
  fun s =>
    let g := rng s in
    (Ok (tape g (drawn g)),
     {| self := self s; rng := {| tape := tape g; drawn := S (drawn g) |} |}).

(** [self.damage_log.append(result)] *)
Definition damage_log_append (result : DamageResult.t) : M unit :=
  fun s =>
    (Ok tt,
     {| self := DamageCalculator.make
                  (DamageCalculator.damage_log (self s) ++ [result]);
        rng := rng s |}).

(** [x / y] *)
Definition truediv (x y : Q) : M Q :=
  if Qeq_bool y 0 then raise ZeroDivisionError else mret (x / y).

(** ** The methods *)

(** Lines 64-71: the resistance looked up for the damage type, plus the
    armor left after penetration when the damage is physical. *)
Definition total_reduction (attacker : Attacker.t) (defender : Defender.t)
    (damage_type : DamageType) : Q :=
  let resistance := dict_get (Defender.resistances defender) damage_type 0 in
  if decide (damage_type = PHYSICAL) then
    let effective_armor :=
      Defender.armor defender * (1 - Attacker.armor_penetration attacker) in
    effective_armor + resistance
  else resistance.

(** Lines 74-78: the diminishing-returns curve. *)
Definition reduction_percent (total_reduction : Q) : M Q :=
  if Py.ge total_reduction 0 then
    truediv total_reduction (total_reduction + 100)
  else
    truediv total_reduction 100.

(** [DamageCalculator.calculate_damage] *)
Definition calculate_damage (attacker : Attacker.t) (defender : Defender.t)
    (damage_type : DamageType) (skill_multiplier : Q) : M DamageResult.t :=
  let base := Attacker.base_damage attacker * skill_multiplier in
  r ← random;
  let is_crit := Py.lt r (Attacker.crit_chance attacker) in
  let crit_damage :=
    if is_crit then base * Attacker.crit_multiplier attacker else base in
  '(final_damage, reduction) ←
    (if decide (damage_type = TRUE) then
       mret (crit_damage, 0)
     else
       reduction_percent ←
         reduction_percent (total_reduction attacker defender damage_type);
       let reduction := crit_damage * reduction_percent in
       mret (Py.max0 (crit_damage - reduction), reduction));
  let result :=
    {| DamageResult.attacker := Attacker.name attacker;
       DamageResult.defender := Defender.name defender;
       DamageResult.base_damage := base;
       DamageResult.is_critical := is_crit;
       DamageResult.damage_after_crit := crit_damage;
       DamageResult.damage_type := DamageType_value damage_type;
       DamageResult.reduction := reduction;
       DamageResult.final_damage := Py.round final_damage 2 |} in
  damage_log_append result;;
  mret result.

(** [DamageCalculator.calculate_dot] *)
Definition calculate_dot (base_tick_damage duration tick_rate : Q)
    : M DotResult.t :=
  q ← truediv duration tick_rate;
  let num_ticks := Py.int q in
  let total_damage := base_tick_damage * inject_Z num_ticks in
  mret {| DotResult.tick_damage := base_tick_damage;
         DotResult.num_ticks := num_ticks;
         DotResult.total_damage := total_damage;
         DotResult.duration := duration |}.

(** The calls with the declared default arguments. *)
Definition calculate_damage_default (attacker : Attacker.t)
    (defender : Defender.t) : M DamageResult.t :=
  calculate_damage attacker defender PHYSICAL 1.

Definition calculate_dot_default (base_tick_damage duration : Q)
    : M DotResult.t :=
  calculate_dot base_tick_damage duration 1.

(** ** Notions the properties are stated with *)

(** The number [reduction_percent] computes. *)
Definition curve (t : Q) : Q :=
  if Py.ge t 0 then t / (t + 100) else t / 100.


(** The value the next call of [random.random()] returns. *)
Definition next_random (s : state) : Q := tape (rng s) (drawn (rng s)).

(** The state a call of [calculate_damage] that returned [result] leaves
    behind: one value drawn, one entry appended. *)
Definition after_hit (s : state) (result : DamageResult.t) : state :=
  {| self := DamageCalculator.make
               (DamageCalculator.damage_log (self s) ++ [result]);
     rng := {| tape := tape (rng s); drawn := S (drawn (rng s)) |} |}.

(** A generator that returns [r] at every draw, and a fresh calculator
    running with it. *)
Definition constant_generator (r : Q) : generator :=
  {| tape := fun _ => r; drawn := 0 |}.

Definition fresh (r : Q) : state :=
  {| self := DamageCalculator.init; rng := constant_generator r |}.

(** Lines 51-55 for a drawn value [r]: the base damage, multiplied when the
    hit is critical. *)
Definition crit_damage (attacker : Attacker.t) (skill_multiplier r : Q) : Q :=
  let base := Attacker.base_damage attacker * skill_multiplier in
  let is_crit := Py.lt r (Attacker.crit_chance attacker) in
  if is_crit then base * Attacker.crit_multiplier attacker else base.

(** * Properties *)

(** ** Comparisons, [max(0, x)] *)

Lemma lt_true_iff (x y : Q) : Py.lt x y = true <-> x < y.
Proof.
  unfold Py.lt. rewrite negb_true_iff.
  split.
  - intros H. apply Qnot_le_lt. intros Hle.
    apply Qle_bool_iff in Hle. congruence.
  - intros H. destruct (Qle_bool y x) eqn:E; [|reflexivity].
    apply Qle_bool_iff in E. lra.
Qed.

Lemma lt_false_iff (x y : Q) : Py.lt x y = false <-> y <= x.
Proof.
  unfold Py.lt. rewrite negb_false_iff. apply Qle_bool_iff.
Qed.

Lemma ge_true_iff (x y : Q) : Py.ge x y = true <-> y <= x.
Proof. unfold Py.ge. apply Qle_bool_iff. Qed.

Lemma ge_false_iff (x y : Q) : Py.ge x y = false <-> x < y.
Proof.
  unfold Py.ge. split.
  - intros H. apply Qnot_le_lt. intros Hle.
    apply Qle_bool_iff in Hle. congruence.
  - intros H. destruct (Qle_bool y x) eqn:E; [|reflexivity].
    apply Qle_bool_iff in E. lra.
Qed.

Lemma max0_pos (x : Q) : 0 < x -> Py.max0 x = x.
Proof.
  intros H. unfold Py.max0.
  apply lt_true_iff in H. rewrite H. reflexivity.
Qed.

Lemma max0_nonpos (x : Q) : x <= 0 -> Py.max0 x = 0.
Proof.
  intros H. unfold Py.max0.
  apply lt_false_iff in H. rewrite H. reflexivity.
Qed.


Lemma max0_nonneg (x : Q) : 0 <= Py.max0 x.
Proof.
  destruct (Qlt_le_dec 0 x) as [Hp|Hn].
  - rewrite max0_pos by assumption. lra.
  - rewrite max0_nonpos by assumption. lra.
Qed.

Lemma max0_mono (x y : Q) : x <= y -> Py.max0 x <= Py.max0 y.
Proof.
  intros H.
  destruct (Qlt_le_dec 0 x) as [Hx|Hx]; destruct (Qlt_le_dec 0 y) as [Hy|Hy];
    rewrite ?(max0_pos x), ?(max0_pos y), ?(max0_nonpos x), ?(max0_nonpos y)
      by assumption; lra.
Qed.

#[global] Instance max0_proper : Proper (Qeq ==> Qeq) Py.max0.
Proof.
  intros x y E. apply Qle_antisym; apply max0_mono; lra.
Qed.

(** ** Rounding *)

(** Turn the outcome of a three-way comparison into an order fact. *)
Ltac compare_facts :=
  repeat match goal with
  | H : Qcompare _ _ = Eq |- _ => apply <- Qeq_alt in H
  | H : Qcompare _ _ = Lt |- _ => apply <- Qlt_alt in H
  | H : Qcompare _ _ = Gt |- _ => apply <- Qgt_alt in H
  end.

Lemma round_half_even_bounds (x : Q) :
  (Qfloor x <= Py.round_half_even x <= Qfloor x + 1)%Z.
Proof.
  unfold Py.round_half_even.
  destruct (Qcompare _ _); [destruct (Z.even _)| |]; lia.
Qed.

Lemma round_half_even_mono (x y : Q) :
  x <= y -> (Py.round_half_even x <= Py.round_half_even y)%Z.
Proof.
  intros Hxy.
  pose proof (Qfloor_resp_le _ _ Hxy) as Hf.
  destruct (Z.eq_dec (Qfloor x) (Qfloor y)) as [E|NE].
  - unfold Py.round_half_even. rewrite <- E.
    destruct (Qcompare (x - inject_Z (Qfloor x)) (1 # 2)) eqn:Cx;
      destruct (Qcompare (y - inject_Z (Qfloor x)) (1 # 2)) eqn:Cy;
      try (destruct (Z.even (Qfloor x))); try lia;
      compare_facts; lra.
  - pose proof (round_half_even_bounds x).
    pose proof (round_half_even_bounds y). lia.
Qed.

#[global] Instance round_half_even_proper :
  Proper (Qeq ==> eq) Py.round_half_even.
Proof.
  intros x y E. apply Z.le_antisymm; apply round_half_even_mono; lra.
Qed.

Lemma round_half_even_Z (k : Z) : Py.round_half_even (inject_Z k) = k.
Proof.
  unfold Py.round_half_even. rewrite Qfloor_Z.
  destruct (Qcompare _ _) eqn:C; try reflexivity;
    compare_facts; lra.
Qed.

Section Rounding.

Variable ndigits : nat.

Let scale : Q := inject_Z (10 ^ Z.of_nat ndigits).

Lemma scale_pos : 0 < scale.
Proof.
  unfold scale. change 0 with (inject_Z 0). rewrite <- Zlt_Qlt.
  apply Z.pow_pos_nonneg; lia.
Qed.

Lemma round_mono (x y : Q) :
  x <= y -> Py.round x ndigits <= Py.round y ndigits.
Proof.
  intros H. unfold Py.round. fold scale.
  pose proof scale_pos as Hs.
  apply Qle_shift_div_l; [assumption|].
  unfold Qdiv.
  rewrite <- Qmult_assoc, (Qmult_comm (/ scale)), Qmult_inv_r by lra.
  rewrite Qmult_1_r. rewrite <- Zle_Qle.
  apply round_half_even_mono. nra.
Qed.

Lemma round_zero : Py.round 0 ndigits == 0.
Proof.
  unfold Py.round. rewrite Qmult_0_l.
  change 0 with (inject_Z 0) at 1. rewrite round_half_even_Z.
  unfold Qdiv. apply Qmult_0_l.
Qed.

Lemma round_nonneg (x : Q) : 0 <= x -> 0 <= Py.round x ndigits.
Proof.
  intros H. rewrite <- round_zero. apply round_mono, H.
Qed.


End Rounding.

#[global] Instance round_proper : Proper (Qeq ==> eq ==> Qeq) Py.round.
Proof.
  intros x y E n ? <-. apply Qle_antisym; apply round_mono; lra.
Qed.


(** ** [int]: truncation toward zero *)

Lemma int_nonneg (q : Q) : 0 <= q -> Py.int q = Qfloor q.
Proof.
  destruct q as [n d]. unfold Qle, Py.int, Qfloor. simpl.
  intros H. apply Z.quot_div_nonneg; lia.
Qed.

Lemma int_nonpos (q : Q) : q <= 0 -> Py.int q = Qceiling q.
Proof.
  destruct q as [n d]. unfold Qle, Py.int, Qceiling, Qfloor. simpl.
  intros H.
  replace n with (- - n)%Z at 1 by lia.
  rewrite Z.quot_opp_l by lia.
  rewrite Z.quot_div_nonneg by lia. reflexivity.
Qed.

#[global] Instance int_proper : Proper (Qeq ==> eq) Py.int.
Proof.
  intros x y E. destruct (Qlt_le_dec x 0) as [H|H].
  - rewrite !int_nonpos by lra.
    unfold Qceiling. f_equal. apply Qfloor_comp. lra.
  - rewrite !int_nonneg by lra. apply Qfloor_comp, E.
Qed.



(** ** The mitigation curve *)

Lemma truediv_returns (x y : Q) (s : state) :
  ~ y == 0 -> truediv x y s = (Ok (x / y), s).
Proof.
  intros H. unfold truediv.
  destruct (Qeq_bool y 0) eqn:E; [|reflexivity].
  apply Qeq_bool_iff in E. contradiction.
Qed.

Lemma truediv_raises (x y : Q) (s : state) :
  y == 0 -> truediv x y s = (Raise ZeroDivisionError, s).
Proof.
  intros H. unfold truediv.
  apply Qeq_bool_iff in H. rewrite H. reflexivity.
Qed.

(** The division in [reduction_percent] never raises: the divisor is at
    least 100 on the first branch and the literal 100 on the second. *)
Lemma reduction_percent_returns (t : Q) (s : state) :
  reduction_percent t s = (Ok (curve t), s).
Proof.
  unfold reduction_percent, curve.
  destruct (Py.ge t 0) eqn:E.
  - apply ge_true_iff in E. apply truediv_returns. lra.
  - apply truediv_returns. lra.
Qed.

Lemma curve_nonneg_arg (t : Q) : 0 <= t -> curve t == t / (t + 100).
Proof.
  intros H. unfold curve. apply ge_true_iff in H. rewrite H. reflexivity.
Qed.

Lemma curve_neg_arg (t : Q) : t < 0 -> curve t == t / 100.
Proof.
  intros H. unfold curve. apply ge_false_iff in H. rewrite H. reflexivity.
Qed.

#[global] Instance curve_proper : Proper (Qeq ==> Qeq) curve.
Proof.
  intros x y E. destruct (Qlt_le_dec x 0) as [H|H].
  - rewrite !curve_neg_arg by lra. rewrite E. reflexivity.
  - rewrite !curve_nonneg_arg by lra. rewrite E. reflexivity.
Qed.

Lemma curve_lt_1 (t : Q) : curve t < 1.
Proof.
  destruct (Qlt_le_dec t 0) as [H|H].
  - rewrite curve_neg_arg by assumption.
    apply Qlt_shift_div_r; lra.
  - rewrite curve_nonneg_arg by assumption.
    apply Qlt_shift_div_r; lra.
Qed.




(** ** What a call returns *)

(** [calculate_damage] raises nothing; the fields of its result written out
    from the arguments and the value drawn. *)
Lemma calculate_damage_returns (attacker : Attacker.t) (defender : Defender.t)
    (damage_type : DamageType) (skill_multiplier : Q) (s : state) :
  exists result,
    calculate_damage attacker defender damage_type skill_multiplier s
    = (Ok result, after_hit s result) /\
    DamageResult.attacker result = Attacker.name attacker /\
    DamageResult.defender result = Defender.name defender /\
    DamageResult.base_damage result
    = Attacker.base_damage attacker * skill_multiplier /\
    DamageResult.is_critical result
    = Py.lt (next_random s) (Attacker.crit_chance attacker) /\
    DamageResult.damage_after_crit result
    = (if DamageResult.is_critical result
       then DamageResult.base_damage result * Attacker.crit_multiplier attacker
       else DamageResult.base_damage result) /\
    DamageResult.damage_type result = DamageType_value damage_type /\
    (damage_type = TRUE ->
     DamageResult.reduction result = 0 /\
     DamageResult.final_damage result
     = Py.round (DamageResult.damage_after_crit result) 2) /\
    (damage_type <> TRUE ->
     DamageResult.reduction result
     = DamageResult.damage_after_crit result
       * curve (total_reduction attacker defender damage_type) /\
     DamageResult.final_damage result
     = Py.round (Py.max0 (DamageResult.damage_after_crit result
                          - DamageResult.reduction result)) 2).
Proof.
  unfold calculate_damage, mbind, M_bind, bind, mret, M_ret, ret.
  unfold random at 1. cbv zeta.
  destruct (decide (damage_type = TRUE)) as [E|NE].
  - eexists. split; [reflexivity|]. cbn.
    repeat split; try reflexivity; intros; congruence.
  - rewrite reduction_percent_returns.
    eexists. split; [reflexivity|]. cbn.
    repeat split; try reflexivity; intros; congruence.
Qed.

(** ** Non-negative final damage *)

(** Wherever mitigation is applied, the result is floored at 0 before it is
    rounded. *)
Lemma mitigated_final_damage_nonneg (attacker : Attacker.t)
    (defender : Defender.t) (damage_type : DamageType) (skill_multiplier : Q)
    (s : state) :
  damage_type <> TRUE ->
  exists result s',
    calculate_damage attacker defender damage_type skill_multiplier s
    = (Ok result, s') /\
    0 <= DamageResult.final_damage result.
Proof.
  intros NE.
  destruct (calculate_damage_returns attacker defender damage_type
              skill_multiplier s)
    as (result & Run & _ & _ & _ & _ & _ & _ & _ & Mit).
  exists result, (after_hit s result). split; [exact Run|].
  destruct (Mit NE) as [_ ->].
  apply round_nonneg, max0_nonneg.
Qed.

(** C1, at the input that breaks it: an attacker with base damage 100
    striking with [DamageType.TRUE] and [skill_multiplier = -1] is returned a
    [final_damage] of -100; the branch for true damage has no floor at 0. *)
Theorem true_damage_negative_final :
  exists result s',
    calculate_damage (Attacker.default "A" 100) (Defender.init "D" 0 None)
      TRUE (- (1)) (fresh (1 # 2))
    = (Ok result, s') /\
    DamageResult.damage_after_crit result == - (100) /\
    DamageResult.final_damage result == - (100) /\
    DamageResult.final_damage result < 0.
Proof.
  eexists. eexists. split; [vm_compute; reflexivity|].
  vm_compute. repeat split; reflexivity.
Qed.

(** ** True damage *)

(** C2 as stated fails: true damage of 5/16 = 0.3125 comes back with
    [final_damage] 0.31, not 0.3125. *)
Lemma true_damage_unrounded_counterexample :
  exists result s',
    calculate_damage (Attacker.default "A" (5 # 16))
      (Defender.init "D" 50 None) TRUE 1 (fresh (1 # 2))
    = (Ok result, s') /\
    DamageResult.damage_after_crit result == 5 # 16 /\
    DamageResult.final_damage result == 31 # 100 /\
    ~ DamageResult.final_damage result
      == DamageResult.damage_after_crit result.
Proof.
  eexists. eexists. split; [vm_compute; reflexivity|].
  vm_compute. repeat split; try reflexivity. intros H. discriminate H.
Qed.

(** C2, amended: for [DamageType.TRUE], whatever the armor, resistances,
    penetration and the critical outcome, [reduction] is 0 and [final_damage]
    is [damage_after_crit] rounded to two decimal places. *)
Theorem true_damage_rounded (attacker : Attacker.t) (defender : Defender.t)
    (skill_multiplier : Q) (s : state) :
  exists result s',
    calculate_damage attacker defender TRUE skill_multiplier s
    = (Ok result, s') /\
    DamageResult.reduction result == 0 /\
    DamageResult.final_damage result
    == Py.round (DamageResult.damage_after_crit result) 2.
Proof.
  destruct (calculate_damage_returns attacker defender TRUE skill_multiplier s)
    as (result & Run & _ & _ & _ & _ & _ & _ & Tr & _).
  exists result, (after_hit s result). split; [exact Run|].
  destruct (Tr eq_refl) as [-> ->]. split; reflexivity.
Qed.

(** ** Damage over time *)

Lemma calculate_dot_returns (base_tick_damage duration tick_rate : Q)
    (s : state) :
  ~ tick_rate == 0 ->
  calculate_dot base_tick_damage duration tick_rate s
  = (Ok {| DotResult.tick_damage := base_tick_damage;
           DotResult.num_ticks := Py.int (duration / tick_rate);
           DotResult.total_damage :=
             base_tick_damage * inject_Z (Py.int (duration / tick_rate));
           DotResult.duration := duration |}, s).
Proof.
  intros H. unfold calculate_dot, mbind, M_bind, bind.
  rewrite truediv_returns by assumption. reflexivity.
Qed.

Lemma calculate_dot_raises (base_tick_damage duration tick_rate : Q)
    (s : state) :
  tick_rate == 0 ->
  calculate_dot base_tick_damage duration tick_rate s
  = (Raise ZeroDivisionError, s).
Proof.
  intros H. unfold calculate_dot, mbind, M_bind, bind.
  rewrite truediv_raises by assumption. reflexivity.
Qed.





(** ** Mitigated damage *)

(** The damage left by the curve, before the floor and the rounding. *)
Lemma mitigated_final_damage (attacker : Attacker.t) (defender : Defender.t)
    (damage_type : DamageType) (skill_multiplier : Q) (s : state) :
  damage_type <> TRUE ->
  exists result,
    calculate_damage attacker defender damage_type skill_multiplier s
    = (Ok result, after_hit s result) /\
    DamageResult.is_critical result
    = Py.lt (next_random s) (Attacker.crit_chance attacker) /\
    DamageResult.damage_after_crit result
    = (if DamageResult.is_critical result
       then Attacker.base_damage attacker * skill_multiplier
            * Attacker.crit_multiplier attacker
       else Attacker.base_damage attacker * skill_multiplier) /\
    DamageResult.reduction result
    == DamageResult.damage_after_crit result
       * curve (total_reduction attacker defender damage_type) /\
    DamageResult.final_damage result
    == Py.round
         (Py.max0
            (DamageResult.damage_after_crit result
             * (1 - curve (total_reduction attacker defender damage_type))))
         2.
Proof.
  intros NE.
  destruct (calculate_damage_returns attacker defender damage_type
              skill_multiplier s)
    as (result & Run & _ & _ & B & C & D & _ & _ & Mit).
  exists result. split; [exact Run|]. split; [exact C|].
  split; [rewrite D, B; reflexivity|].
  destruct (Mit NE) as [R F]. split; [rewrite R; reflexivity|].
  rewrite F, R.
  apply round_proper; [|reflexivity]. apply max0_proper. ring.
Qed.










(** ** Monotonicity in the resistance *)






(** ** Critical hits *)

(** C8: the hit is critical exactly when the value drawn from [[0, 1)] is
    below the attacker's [crit_chance]; with [crit_chance >= 1] every call is
    critical and [damage_after_crit = base * crit_multiplier], with
    [crit_chance <= 0] no call is critical and [damage_after_crit = base]. *)
Theorem critical_hit_resolution (attacker : Attacker.t) (defender : Defender.t)
    (damage_type : DamageType) (skill_multiplier : Q) (s : state) :
  unit_interval (rng s) ->
  exists result s',
    calculate_damage attacker defender damage_type skill_multiplier s
    = (Ok result, s') /\
    DamageResult.base_damage result
    == Attacker.base_damage attacker * skill_multiplier /\
    (DamageResult.is_critical result = true
     <-> next_random s < Attacker.crit_chance attacker) /\
    (1 <= Attacker.crit_chance attacker ->
     DamageResult.is_critical result = true /\
     DamageResult.damage_after_crit result
     == DamageResult.base_damage result * Attacker.crit_multiplier attacker) /\
    (Attacker.crit_chance attacker <= 0 ->
     DamageResult.is_critical result = false /\
     DamageResult.damage_after_crit result == DamageResult.base_damage result).
Proof.
  intros U.
  destruct (calculate_damage_returns attacker defender damage_type
              skill_multiplier s)
    as (result & Run & _ & _ & B & C & D & _).
  exists result, (after_hit s result). split; [exact Run|].
  split; [rewrite B; reflexivity|].
  destruct (U (drawn (rng s))) as [Lo Hi]. fold (next_random s) in Lo, Hi.
  split; [rewrite C; apply lt_true_iff|]. split.
  - intros H.
    assert (E : DamageResult.is_critical result = true)
      by (rewrite C; apply lt_true_iff; lra).
    split; [exact E|]. rewrite D, E. reflexivity.
  - intros H.
    assert (E : DamageResult.is_critical result = false)
      by (rewrite C; apply lt_false_iff; lra).
    split; [exact E|]. rewrite D, E. reflexivity.
Qed.

(** A generator that always returns 1/2 stays inside the unit interval; the
    attacker here has [crit_chance = 1]. *)
Lemma critical_hit_resolution_witness :
  unit_interval (rng (fresh (1 # 2))) /\
  exists result s',
    calculate_damage (Attacker.make "Warrior" 100 1 (5 # 2) (1 # 5))
      (Defender.init "Goblin" 50 None) PHYSICAL 1 (fresh (1 # 2))
    = (Ok result, s') /\
    DamageResult.base_damage result == 100 * 1 /\
    (DamageResult.is_critical result = true <-> next_random (fresh (1 # 2)) < 1)
    /\
    (1 <= 1 ->
     DamageResult.is_critical result = true /\
     DamageResult.damage_after_crit result
     == DamageResult.base_damage result * (5 # 2)) /\
    (1 <= 0 ->
     DamageResult.is_critical result = false /\
     DamageResult.damage_after_crit result == DamageResult.base_damage result).
Proof.
  assert (U : unit_interval (rng (fresh (1 # 2)))).
  { intros n. simpl. split; [discriminate|reflexivity]. }
  split; [exact U|].
  apply (critical_hit_resolution
           (Attacker.make "Warrior" 100 1 (5 # 2) (1 # 5))
           (Defender.init "Goblin" 50 None) PHYSICAL 1 (fresh (1 # 2)) U).
Defined.

(** ** The history log *)

(** C9: a call of [calculate_damage] appends exactly one entry, the result it
    returns, to [damage_log]; a call of [calculate_dot] leaves the log (and
    the rest of the state) as it was, whether it returns or raises. *)
Theorem history_log (attacker : Attacker.t) (defender : Defender.t)
    (damage_type : DamageType) (skill_multiplier : Q)
    (base_tick_damage duration tick_rate : Q) (s : state) :
  (exists result s',
     calculate_damage attacker defender damage_type skill_multiplier s
     = (Ok result, s') /\
     DamageCalculator.damage_log (self s')
     = DamageCalculator.damage_log (self s) ++ [result] /\
     length (DamageCalculator.damage_log (self s'))
     = S (length (DamageCalculator.damage_log (self s))))
  /\
  snd (calculate_dot base_tick_damage duration tick_rate s) = s /\
  DamageCalculator.damage_log
    (self (snd (calculate_dot base_tick_damage duration tick_rate s)))
  = DamageCalculator.damage_log (self s).
Proof.
  split.
  - destruct (calculate_damage_returns attacker defender damage_type
                skill_multiplier s) as (result & Run & _).
    exists result, (after_hit s result). split; [exact Run|]. cbn.
    split; [reflexivity|]. rewrite length_app. cbn. lia.
  - assert (E : snd (calculate_dot base_tick_damage duration tick_rate s) = s).
    { destruct (Qeq_dec tick_rate 0) as [Z|NZ].
      - rewrite calculate_dot_raises by assumption. reflexivity.
      - rewrite calculate_dot_returns by assumption. reflexivity. }
    split; [exact E|]. rewrite E. reflexivity.
Qed.

(** ** Worked scenarios *)

(** The physical hit of the specification: base damage 100, a fifth of the
    armor penetrated, no critical; armor 50 leaves an effective 40, a
    reduction fraction of 40/140 and a final damage of 71.43. *)
Example physical_hit_scenario :
  exists result s',
    calculate_damage (Attacker.make "Warrior" 100 0 (5 # 2) (1 # 5))
      (Defender.init "Goblin" 50 None) PHYSICAL 1 (fresh (1 # 2))
    = (Ok result, s') /\
    DamageResult.is_critical result = false /\
    DamageResult.reduction result == 100 * (40 # 140) /\
    DamageResult.final_damage result == 7143 # 100 /\
    DamageCalculator.damage_log (self s') = [result].
Proof.
  eexists. eexists. split; [vm_compute; reflexivity|].
  vm_compute. repeat split; reflexivity.
Qed.

(** The poison effect of the demonstration: 5 ticks, 75 damage. *)
Example poison_dot_scenario :
  exists result,
    calculate_dot 15 10 2 (fresh (1 # 2)) = (Ok result, fresh (1 # 2)) /\
    DotResult.num_ticks result = 5%Z /\
    DotResult.total_damage result == 75.
Proof.
  eexists. split; [apply calculate_dot_returns; discriminate|].
  split; reflexivity.
Qed.

(** A zero [tick_rate] raises before any result is built. *)
Example zero_tick_rate_raises :
  calculate_dot 15 10 0 (fresh (1 # 2))
  = (Raise ZeroDivisionError, fresh (1 # 2)).
Proof. apply calculate_dot_raises. reflexivity. Qed.

(** * Further properties of the calculator *)

(** ** Every hit returns *)

(** The fields of a hit in terms of [crit_damage] and [curve]. *)
Lemma hit_fields (attacker : Attacker.t) (defender : Defender.t)
    (damage_type : DamageType) (skill_multiplier : Q) (s : state) :
  exists result,
    calculate_damage attacker defender damage_type skill_multiplier s
    = (Ok result, after_hit s result) /\
    DamageResult.damage_after_crit result
    = crit_damage attacker skill_multiplier (next_random s) /\
    (damage_type = TRUE ->
     DamageResult.reduction result = 0 /\
     DamageResult.final_damage result
     = Py.round (DamageResult.damage_after_crit result) 2) /\
    (damage_type <> TRUE ->
     DamageResult.reduction result
     = DamageResult.damage_after_crit result
       * curve (total_reduction attacker defender damage_type) /\
     DamageResult.final_damage result
     = Py.round (Py.max0 (DamageResult.damage_after_crit result
                          - DamageResult.reduction result)) 2).
Proof.
  destruct (calculate_damage_returns attacker defender damage_type
              skill_multiplier s)
    as (result & Run & _ & _ & B & C & D & _ & T & Mit).
  exists result. split; [exact Run|]. split; [|split; assumption].
  rewrite D, C, B. reflexivity.
Qed.


(** The demonstration's fire spell is mitigated, hence not negative. *)
Lemma mitigated_final_damage_nonneg_witness :
  FIRE <> TRUE /\
  exists result s',
    calculate_damage (Attacker.make "Warrior" 100 (1 # 4) (5 # 2) (1 # 5))
      (Defender.init "Goblin" 50 (Some {[ FIRE := 30 ]})) FIRE (- (3 # 2))
      (fresh (1 # 2))
    = (Ok result, s') /\
    0 <= DamageResult.final_damage result.
Proof.
  split; [discriminate|].
  apply (mitigated_final_damage_nonneg
           (Attacker.make "Warrior" 100 (1 # 4) (5 # 2) (1 # 5))
           (Defender.init "Goblin" 50 (Some {[ FIRE := 30 ]})) FIRE
           (- (3 # 2)) (fresh (1 # 2))).
  discriminate.
Defined.

(** ** When the floor at 0 acts *)



(** With a [damage_after_crit] of 0 or less, every damage type other than
    TRUE returns a [final_damage] of 0, whatever the armor and the
    resistances: negative damage never heals through a mitigated hit. *)
Theorem nonpositive_damage_floored (attacker : Attacker.t)
    (defender : Defender.t) (damage_type : DamageType) (skill_multiplier : Q)
    (s : state) :
  damage_type <> TRUE ->
  crit_damage attacker skill_multiplier (next_random s) <= 0 ->
  exists result s',
    calculate_damage attacker defender damage_type skill_multiplier s
    = (Ok result, s') /\
    DamageResult.final_damage result == 0.
Proof.
  intros NE Neg.
  destruct (hit_fields attacker defender damage_type skill_multiplier s)
    as (result & Run & D & _ & Mit).
  exists result, (after_hit s result). split; [exact Run|].
  destruct (Mit NE) as [R F]. rewrite <- D in Neg.
  pose proof (curve_lt_1 (total_reduction attacker defender damage_type)) as C.
  rewrite F, max0_nonpos by (rewrite R; nra).
  apply round_zero.
Qed.

Lemma nonpositive_damage_floored_witness :
  ICE <> TRUE /\
  crit_damage (Attacker.default "A" 100) (- (1)) (next_random (fresh (1 # 2)))
  <= 0 /\
  exists result s',
    calculate_damage (Attacker.default "A" 100)
      (Defender.init "D" 0 (Some {[ ICE := - (20) ]})) ICE (- (1))
      (fresh (1 # 2))
    = (Ok result, s') /\
    DamageResult.final_damage result == 0.
Proof.
  split; [discriminate|]. split; [discriminate|].
  apply (nonpositive_damage_floored (Attacker.default "A" 100)
           (Defender.init "D" 0 (Some {[ ICE := - (20) ]})) ICE (- (1))
           (fresh (1 # 2)));
    [discriminate|discriminate].
Defined.

(** ** Mitigation and weakness *)





(** ** What the rounding does to the result *)





(** ** What a hit does not depend on *)

(** Two calls agree as soon as the attackers agree on everything but the
    penetration, the defenders have one name, and the total reductions
    coincide wherever one is computed. *)
Lemma hit_depends_on (a1 a2 : Attacker.t) (d1 d2 : Defender.t)
    (damage_type : DamageType) (skill_multiplier : Q) (s : state) :
  Attacker.name a1 = Attacker.name a2 ->
  Attacker.base_damage a1 = Attacker.base_damage a2 ->
  Attacker.crit_chance a1 = Attacker.crit_chance a2 ->
  Attacker.crit_multiplier a1 = Attacker.crit_multiplier a2 ->
  Defender.name d1 = Defender.name d2 ->
  (damage_type <> TRUE ->
   total_reduction a1 d1 damage_type = total_reduction a2 d2 damage_type) ->
  calculate_damage a1 d1 damage_type skill_multiplier s
  = calculate_damage a2 d2 damage_type skill_multiplier s.
Proof.
  intros N B C M D T. unfold calculate_damage.
  rewrite N, B, C, M, D.
  destruct (decide (damage_type = TRUE)) as [E|NE]; [reflexivity|].
  rewrite (T NE). reflexivity.
Qed.

(** Armor and armor penetration enter physical damage only: for any other
    damage type a call returns the same result and leaves the same state
    whatever the defender's armor and the attacker's penetration. *)
Theorem armor_irrelevant_off_physical (name dname : string)
    (base_damage crit_chance crit_multiplier : Q)
    (penetration penetration' armor armor' : Q)
    (resistances : gmap DamageType Q)
    (damage_type : DamageType) (skill_multiplier : Q) (s : state) :
  damage_type <> PHYSICAL ->
  calculate_damage
    (Attacker.make name base_damage crit_chance crit_multiplier penetration)
    (Defender.make dname armor resistances) damage_type skill_multiplier s
  = calculate_damage
      (Attacker.make name base_damage crit_chance crit_multiplier penetration')
      (Defender.make dname armor' resistances) damage_type skill_multiplier s.
Proof.
  intros NP. apply hit_depends_on; try reflexivity.
  intros _. unfold total_reduction.
  destruct (decide (damage_type = PHYSICAL)); [contradiction|reflexivity].
Qed.

Lemma armor_irrelevant_off_physical_witness :
  FIRE <> PHYSICAL /\
  calculate_damage (Attacker.make "Warrior" 100 (1 # 4) (5 # 2) (1 # 5))
    (Defender.make "Goblin" 50 {[ FIRE := 30 ]}) FIRE (3 # 2) (fresh (1 # 2))
  = calculate_damage (Attacker.make "Warrior" 100 (1 # 4) (5 # 2) 1)
      (Defender.make "Goblin" 1000 {[ FIRE := 30 ]}) FIRE (3 # 2)
      (fresh (1 # 2)).
Proof.
  split; [discriminate|].
  apply (armor_irrelevant_off_physical "Warrior" "Goblin" 100 (1 # 4) (5 # 2)
           (1 # 5) 1 50 1000 {[ FIRE := 30 ]} FIRE (3 # 2) (fresh (1 # 2))).
  discriminate.
Defined.

(** True damage ignores all defenses: the result and the state left are the
    same for every armor, every dictionary of resistances and every
    penetration. *)
Theorem true_damage_ignores_defenses (name dname : string)
    (base_damage crit_chance crit_multiplier : Q)
    (penetration penetration' armor armor' : Q)
    (resistances resistances' : gmap DamageType Q)
    (skill_multiplier : Q) (s : state) :
  calculate_damage
    (Attacker.make name base_damage crit_chance crit_multiplier penetration)
    (Defender.make dname armor resistances) TRUE skill_multiplier s
  = calculate_damage
      (Attacker.make name base_damage crit_chance crit_multiplier penetration')
      (Defender.make dname armor' resistances') TRUE skill_multiplier s.
Proof.
  apply hit_depends_on; try reflexivity. intros NE. contradiction.
Qed.

(** Only the resistance stored under the damage type of the hit is read:
    setting or removing the entry of another type changes neither the result
    nor the state left. *)
Theorem other_resistances_irrelevant (attacker : Attacker.t) (dname : string)
    (armor : Q) (resistances : gmap DamageType Q) (other : DamageType)
    (value : Q) (damage_type : DamageType) (skill_multiplier : Q) (s : state) :
  other <> damage_type ->
  calculate_damage attacker
    (Defender.make dname armor (<[ other := value ]> resistances))
    damage_type skill_multiplier s
  = calculate_damage attacker (Defender.make dname armor resistances)
      damage_type skill_multiplier s
  /\
  calculate_damage attacker
    (Defender.make dname armor (delete other resistances))
    damage_type skill_multiplier s
  = calculate_damage attacker (Defender.make dname armor resistances)
      damage_type skill_multiplier s.
Proof.
  intros NE. split; apply hit_depends_on; try reflexivity; intros _;
    unfold total_reduction, dict_get; cbn [Defender.resistances].
  - rewrite lookup_insert_ne by assumption. reflexivity.
  - rewrite lookup_delete_ne by assumption. reflexivity.
Qed.

Lemma other_resistances_irrelevant_witness :
  ICE <> FIRE /\
  calculate_damage (Attacker.default "Warrior" 100)
    (Defender.make "Goblin" 50 (<[ ICE := - (20) ]> {[ FIRE := 30 ]}))
    FIRE (3 # 2) (fresh (1 # 2))
  = calculate_damage (Attacker.default "Warrior" 100)
      (Defender.make "Goblin" 50 {[ FIRE := 30 ]}) FIRE (3 # 2)
      (fresh (1 # 2))
  /\
  calculate_damage (Attacker.default "Warrior" 100)
    (Defender.make "Goblin" 50 (delete ICE {[ FIRE := 30 ]}))
    FIRE (3 # 2) (fresh (1 # 2))
  = calculate_damage (Attacker.default "Warrior" 100)
      (Defender.make "Goblin" 50 {[ FIRE := 30 ]}) FIRE (3 # 2)
      (fresh (1 # 2)).
Proof.
  split; [discriminate|].
  apply (other_resistances_irrelevant (Attacker.default "Warrior" 100)
           "Goblin" 50 {[ FIRE := 30 ]} ICE (- (20)) FIRE (3 # 2)
           (fresh (1 # 2))).
  discriminate.
Defined.

(** A damage type missing from the dictionary counts as resistance 0: storing
    an explicit 0 under it changes neither the result nor the state left. *)
Theorem missing_resistance_is_zero (attacker : Attacker.t) (dname : string)
    (armor : Q) (resistances : gmap DamageType Q)
    (damage_type : DamageType) (skill_multiplier : Q) (s : state) :
  resistances !! damage_type = None ->
  dict_get resistances damage_type 0 = 0 /\
  calculate_damage attacker
    (Defender.make dname armor (<[ damage_type := 0 ]> resistances))
    damage_type skill_multiplier s
  = calculate_damage attacker (Defender.make dname armor resistances)
      damage_type skill_multiplier s.
Proof.
  intros Miss.
  assert (G : dict_get resistances damage_type 0 = 0)
    by (unfold dict_get; rewrite Miss; reflexivity).
  split; [exact G|].
  apply hit_depends_on; try reflexivity; intros _.
  unfold total_reduction; cbn [Defender.resistances].
  rewrite G. unfold dict_get. rewrite lookup_insert_eq. reflexivity.
Qed.

Lemma missing_resistance_is_zero_witness :
  ({[ FIRE := 30 ]} : gmap DamageType Q) !! POISON = None /\
  dict_get {[ FIRE := 30 ]} POISON 0 = 0 /\
  calculate_damage (Attacker.default "Warrior" 100)
    (Defender.make "Goblin" 50 (<[ POISON := 0 ]> {[ FIRE := 30 ]}))
    POISON 1 (fresh (1 # 2))
  = calculate_damage (Attacker.default "Warrior" 100)
      (Defender.make "Goblin" 50 {[ FIRE := 30 ]}) POISON 1 (fresh (1 # 2)).
Proof.
  split; [reflexivity|].
  apply (missing_resistance_is_zero (Attacker.default "Warrior" 100)
           "Goblin" 50 {[ FIRE := 30 ]} POISON 1 (fresh (1 # 2))).
  reflexivity.
Defined.

(** ** Penetration, constructors and defaults *)

(** With an armor penetration of 1 all armor is ignored: a physical hit
    takes off and deals what it would against the same defender without
    armor. *)
Theorem full_penetration_ignores_armor (attacker : Attacker.t)
    (dname : string) (armor : Q) (resistances : gmap DamageType Q)
    (skill_multiplier : Q) (s : state) :
  Attacker.armor_penetration attacker == 1 ->
  exists r1 r2 s1 s2,
    calculate_damage attacker (Defender.make dname armor resistances)
      PHYSICAL skill_multiplier s = (Ok r1, s1) /\
    calculate_damage attacker (Defender.make dname 0 resistances)
      PHYSICAL skill_multiplier s = (Ok r2, s2) /\
    total_reduction attacker (Defender.make dname armor resistances) PHYSICAL
    == dict_get resistances PHYSICAL 0 /\
    DamageResult.reduction r1 == DamageResult.reduction r2 /\
    DamageResult.final_damage r1 == DamageResult.final_damage r2.
Proof.
  intros Pen.
  assert (NE : PHYSICAL <> TRUE) by discriminate.
  destruct (mitigated_final_damage attacker
              (Defender.make dname armor resistances) PHYSICAL
              skill_multiplier s NE) as (r1 & Run1 & C1 & D1 & R1 & F1).
  destruct (mitigated_final_damage attacker
              (Defender.make dname 0 resistances) PHYSICAL
              skill_multiplier s NE) as (r2 & Run2 & C2 & D2 & R2 & F2).
  exists r1, r2, (after_hit s r1), (after_hit s r2).
  split; [exact Run1|]. split; [exact Run2|].
  assert (T1 : total_reduction attacker
                 (Defender.make dname armor resistances) PHYSICAL
               == dict_get resistances PHYSICAL 0).
  { unfold total_reduction.
    destruct (decide (PHYSICAL = PHYSICAL)); [|contradiction].
    cbn [Defender.armor Defender.resistances]. rewrite Pen. ring. }
  assert (T2 : total_reduction attacker
                 (Defender.make dname 0 resistances) PHYSICAL
               == dict_get resistances PHYSICAL 0).
  { unfold total_reduction.
    destruct (decide (PHYSICAL = PHYSICAL)); [|contradiction].
    cbn [Defender.armor Defender.resistances]. ring. }
  assert (D : DamageResult.damage_after_crit r1
              = DamageResult.damage_after_crit r2)
    by (rewrite D1, D2, C1, C2; reflexivity).
  split; [exact T1|]. split.
  - rewrite R1, R2, D, T1, T2. reflexivity.
  - rewrite F1, F2, D, T1, T2. reflexivity.
Qed.

Lemma full_penetration_ignores_armor_witness :
  Attacker.armor_penetration (Attacker.make "Warrior" 100 0 2 1) == 1 /\
  exists r1 r2 s1 s2,
    calculate_damage (Attacker.make "Warrior" 100 0 2 1)
      (Defender.make "Goblin" 50 {[ PHYSICAL := 25 ]})
      PHYSICAL 1 (fresh (1 # 2)) = (Ok r1, s1) /\
    calculate_damage (Attacker.make "Warrior" 100 0 2 1)
      (Defender.make "Goblin" 0 {[ PHYSICAL := 25 ]})
      PHYSICAL 1 (fresh (1 # 2)) = (Ok r2, s2) /\
    total_reduction (Attacker.make "Warrior" 100 0 2 1)
      (Defender.make "Goblin" 50 {[ PHYSICAL := 25 ]}) PHYSICAL
    == dict_get {[ PHYSICAL := 25 ]} PHYSICAL 0 /\
    DamageResult.reduction r1 == DamageResult.reduction r2 /\
    DamageResult.final_damage r1 == DamageResult.final_damage r2.
Proof.
  split; [reflexivity|].
  apply (full_penetration_ignores_armor (Attacker.make "Warrior" 100 0 2 1)
           "Goblin" 50 {[ PHYSICAL := 25 ]} 1 (fresh (1 # 2))).
  reflexivity.
Defined.



(** An attacker built with the declared defaults ([crit_chance] 0) never
    lands a critical hit: with draws from [[0, 1)] every result has
    [is_critical] false and [damage_after_crit = base_damage *
    skill_multiplier], whatever the default multiplier of 2. *)
Theorem default_attacker_never_crits (name : string) (base_damage : Q)
    (defender : Defender.t) (damage_type : DamageType) (skill_multiplier : Q)
    (s : state) :
  unit_interval (rng s) ->
  exists result s',
    calculate_damage (Attacker.default name base_damage) defender damage_type
      skill_multiplier s
    = (Ok result, s') /\
    DamageResult.is_critical result = false /\
    DamageResult.damage_after_crit result == base_damage * skill_multiplier.
Proof.
  intros U.
  destruct (calculate_damage_returns (Attacker.default name base_damage)
              defender damage_type skill_multiplier s)
    as (result & Run & _ & _ & B & C & D & _).
  exists result, (after_hit s result). split; [exact Run|].
  destruct (U (drawn (rng s))) as [Lo _]. fold (next_random s) in Lo.
  assert (E : DamageResult.is_critical result = false)
    by (rewrite C; apply lt_false_iff; exact Lo).
  split; [exact E|]. rewrite D, E, B. reflexivity.
Qed.

Lemma default_attacker_never_crits_witness :
  unit_interval (rng (fresh 0)) /\
  exists result s',
    calculate_damage (Attacker.default "Warrior" 100)
      (Defender.init "Goblin" 50 None) PHYSICAL 1 (fresh 0)
    = (Ok result, s') /\
    DamageResult.is_critical result = false /\
    DamageResult.damage_after_crit result == 100 * 1.
Proof.
  assert (U : unit_interval (rng (fresh 0))).
  { intros n. simpl. split; [discriminate|reflexivity]. }
  split; [exact U|].
  apply (default_attacker_never_crits "Warrior" 100
           (Defender.init "Goblin" 50 None) PHYSICAL 1 (fresh 0) U).
Defined.

(** The [damage_type] string of a result identifies the damage type of the
    call: the six members of the enumeration have six different values. *)
Theorem damage_type_recoverable (a1 a2 : Attacker.t) (d1 d2 : Defender.t)
    (t1 t2 : DamageType) (k1 k2 : Q) (s1 s2 : state) :
  exists r1 r2 s1' s2',
    calculate_damage a1 d1 t1 k1 s1 = (Ok r1, s1') /\
    calculate_damage a2 d2 t2 k2 s2 = (Ok r2, s2') /\
    (DamageResult.damage_type r1 = DamageResult.damage_type r2 <-> t1 = t2).
Proof.
  destruct (calculate_damage_returns a1 d1 t1 k1 s1)
    as (r1 & Run1 & _ & _ & _ & _ & _ & V1 & _).
  destruct (calculate_damage_returns a2 d2 t2 k2 s2)
    as (r2 & Run2 & _ & _ & _ & _ & _ & V2 & _).
  exists r1, r2, (after_hit s1 r1), (after_hit s2 r2).
  split; [exact Run1|]. split; [exact Run2|].
  rewrite V1, V2. split.
  - destruct t1, t2; intros H; try reflexivity; discriminate H.
  - intros ->. reflexivity.
Qed.

(** ** Monotonicity in the damage dealt *)






(** ** Calls in sequence *)


(** A damage-over-time calculation with a zero tick rate after a hit raises
    [ZeroDivisionError], and the hit stays in the log: the state is the one
    the hit left. *)
Theorem failed_dot_keeps_logged_hit (attacker : Attacker.t)
    (defender : Defender.t) (damage_type : DamageType) (skill_multiplier : Q)
    (base_tick_damage duration tick_rate : Q) (s : state) :
  tick_rate == 0 ->
  exists result,
    calculate_damage attacker defender damage_type skill_multiplier s
    = (Ok result, after_hit s result) /\
    (hit ← calculate_damage attacker defender damage_type skill_multiplier;
     dot ← calculate_dot base_tick_damage duration tick_rate;
     mret (hit, dot)) s
    = (Raise ZeroDivisionError, after_hit s result) /\
    DamageCalculator.damage_log (self (after_hit s result))
    = DamageCalculator.damage_log (self s) ++ [result].
Proof.
  intros Z.
  destruct (calculate_damage_returns attacker defender damage_type
              skill_multiplier s) as (result & Run & _).
  exists result. split; [exact Run|]. split; [|reflexivity].
  unfold mbind, M_bind, bind at 1. rewrite Run.
  unfold bind. rewrite calculate_dot_raises by assumption. reflexivity.
Qed.

Lemma failed_dot_keeps_logged_hit_witness :
  0 == 0 /\
  exists result,
    calculate_damage (Attacker.default "Warrior" 100)
      (Defender.init "Goblin" 50 None) PHYSICAL 1 (fresh (1 # 2))
    = (Ok result, after_hit (fresh (1 # 2)) result) /\
    (hit ← calculate_damage (Attacker.default "Warrior" 100)
             (Defender.init "Goblin" 50 None) PHYSICAL 1;
     dot ← calculate_dot 15 10 0;
     mret (hit, dot)) (fresh (1 # 2))
    = (Raise ZeroDivisionError, after_hit (fresh (1 # 2)) result) /\
    DamageCalculator.damage_log (self (after_hit (fresh (1 # 2)) result))
    = DamageCalculator.damage_log (self (fresh (1 # 2))) ++ [result].
Proof.
  split; [reflexivity|].
  apply (failed_dot_keeps_logged_hit (Attacker.default "Warrior" 100)
           (Defender.init "Goblin" 50 None) PHYSICAL 1 15 10 0
           (fresh (1 # 2))).
  reflexivity.
Defined.

(** * Further properties of damage over time *)


Lemma int_opp (q : Q) : Py.int (- q) = (- Py.int q)%Z.
Proof.
  destruct q as [n d]. unfold Py.int. simpl.
  apply Z.quot_opp_l. discriminate.
Qed.









(** Negating the duration negates the number of ticks and the total damage,
    and negating both the duration and the tick rate changes neither: the
    count depends on the magnitude of the quotient and on its sign
    separately. *)
Theorem dot_odd_in_duration (base_tick_damage duration tick_rate : Q)
    (s : state) :
  ~ tick_rate == 0 ->
  exists r r_neg r_both,
    calculate_dot base_tick_damage duration tick_rate s = (Ok r, s) /\
    calculate_dot base_tick_damage (- duration) tick_rate s = (Ok r_neg, s) /\
    calculate_dot base_tick_damage (- duration) (- tick_rate) s
    = (Ok r_both, s) /\
    DotResult.num_ticks r_neg = (- DotResult.num_ticks r)%Z /\
    DotResult.total_damage r_neg == - DotResult.total_damage r /\
    DotResult.num_ticks r_both = DotResult.num_ticks r /\
    DotResult.total_damage r_both == DotResult.total_damage r.
Proof.
  intros NZ.
  assert (NZ' : ~ - tick_rate == 0) by (intros H; apply NZ; lra).
  eexists. eexists. eexists.
  split; [apply calculate_dot_returns, NZ|].
  split; [apply calculate_dot_returns, NZ|].
  split; [apply calculate_dot_returns, NZ'|].
  cbn [DotResult.num_ticks DotResult.total_damage].
  assert (E1 : - duration / tick_rate == - (duration / tick_rate))
    by (field; exact NZ).
  assert (E2 : - duration / - tick_rate == duration / tick_rate)
    by (field; exact NZ).
  assert (I1 : Py.int (- duration / tick_rate)
               = (- Py.int (duration / tick_rate))%Z)
    by (rewrite E1; apply int_opp).
  assert (I2 : Py.int (- duration / - tick_rate)
               = Py.int (duration / tick_rate))
    by (rewrite E2; reflexivity).
  split; [exact I1|]. split; [rewrite I1, inject_Z_opp; ring|].
  split; [exact I2|]. rewrite I2. reflexivity.
Qed.

Lemma dot_odd_in_duration_witness :
  ~ 2 == 0 /\
  exists r r_neg r_both,
    calculate_dot 10 9 2 (fresh (1 # 2)) = (Ok r, fresh (1 # 2)) /\
    calculate_dot 10 (- (9)) 2 (fresh (1 # 2)) = (Ok r_neg, fresh (1 # 2)) /\
    calculate_dot 10 (- (9)) (- (2)) (fresh (1 # 2))
    = (Ok r_both, fresh (1 # 2)) /\
    DotResult.num_ticks r_neg = (- DotResult.num_ticks r)%Z /\
    DotResult.total_damage r_neg == - DotResult.total_damage r /\
    DotResult.num_ticks r_both = DotResult.num_ticks r /\
    DotResult.total_damage r_both == DotResult.total_damage r.
Proof.
  split; [discriminate|].
  apply (dot_odd_in_duration 10 9 2 (fresh (1 # 2))). discriminate.
Defined.


